(** * unit_conversion.py: the conversion engine

    A shallow embedding of [convert] and of its two lookup tables,
    [CONVERSION_FACTORS] and [TEMPERATURE_CONVERSIONS], together with the
    part of Python's numeric tower the function runs on.

    - A Python [float] is an IEEE 754 binary64 number: Rocq's primitive
      [float], whose operations round to nearest, ties to even.
    - A Python [int] is an unbounded integer: [Z].
    - A Python [str] is a sequence of code points.  Unit strings are
      modelled by Rocq's [string], each character standing for the code
      point with the same number (0 to 255).
    - A [dict] is a finite map ([gmap]); a raised exception is the
      [Raise] branch of the [result] monad. *)

From Stdlib Require Import ZArith QArith Qabs String Ascii.
From Stdlib Require Import Floats.PrimFloat Floats.SpecFloat Floats.FloatOps.
From Stdlib Require Import Floats.FloatAxioms.
From stdpp Require Import base option list gmap strings pretty.

Set Warnings "-inexact-float".

(** ** Exceptions and results *)

(** The exceptions the engine can meet.  Only [ValueError] is raised by
    [convert] itself; the others belong to the operators it calls. *)
Inductive exn : Type :=
  | ValueError (msg : string)
  | KeyError (key : string * string)
  | OverflowError
  | ZeroDivisionError.

Inductive result (A : Type) : Type :=
  | Return (a : A)
  | Raise (e : exn).
Arguments Return {A} a.
Arguments Raise {A} e.

#[global] Instance result_ret : MRet result := @Return.
#[global] Instance result_bind : MBind result := fun A B f r =>
  match r with
  | Return a => f a
  | Raise e => Raise e
  end.

(** ** Python numbers *)

Inductive pynum : Type :=
  | PyInt (n : Z)
  | PyFloat (x : float).

Module PyNum.

(** [float(n)] for an [int]: the nearest binary64 number, ties to even;
    [OverflowError] when that rounding leaves the finite range. *)
Definition float_of_int (n : Z) : result float :=
  match binary_normalize prec emax n 0 false with
  | S754_infinity _ => Raise OverflowError
  | s => Return (SF2Prim s)
  end.

Definition SF_of_int (n : Z) : spec_float :=
  match n with
  | Z0 => S754_zero false
  | Zpos p => S754_finite false p 0
  | Zneg p => S754_finite true p 0
  end.

(** [a / b] on two [int]s: the correctly rounded quotient. *)
Definition int_true_divide (a b : Z) : result float :=
  if Z.eqb b 0 then Raise ZeroDivisionError
  else
    match SFdiv prec emax (SF_of_int a) (SF_of_int b) with
    | S754_infinity _ => Raise OverflowError
    | s => Return (SF2Prim s)
    end.

(** [a / b] on two [float]s. *)
Definition float_true_divide (x y : float) : result float :=
  if PrimFloat.eqb y 0%float then Raise ZeroDivisionError
  else Return (x / y)%float.

(** A binary operator that stays in [int] on two [int]s and otherwise
    widens the [int] operand to [float]. *)
Definition arith (zop : Z -> Z -> Z) (fop : float -> float -> float)
    (a b : pynum) : result pynum :=
  match a, b with
  | PyInt m, PyInt n => Return (PyInt (zop m n))
  | PyInt m, PyFloat y => x ← float_of_int m; Return (PyFloat (fop x y))
  | PyFloat x, PyInt n => y ← float_of_int n; Return (PyFloat (fop x y))
  | PyFloat x, PyFloat y => Return (PyFloat (fop x y))
  end.

Definition mul : pynum -> pynum -> result pynum := arith Z.mul PrimFloat.mul.
Definition add : pynum -> pynum -> result pynum := arith Z.add PrimFloat.add.
Definition sub : pynum -> pynum -> result pynum := arith Z.sub PrimFloat.sub.

Definition truediv (a b : pynum) : result pynum :=
  match a, b with
  | PyInt m, PyInt n => r ← int_true_divide m n; Return (PyFloat r)
  | PyInt m, PyFloat y =>
      x ← float_of_int m; r ← float_true_divide x y; Return (PyFloat r)
  | PyFloat x, PyInt n =>
      y ← float_of_int n; r ← float_true_divide x y; Return (PyFloat r)
  | PyFloat x, PyFloat y => r ← float_true_divide x y; Return (PyFloat r)
  end.

End PyNum.

(** ** Strings *)

(** [str.lower] on one code point below 256: the capital letters A-Z and
    the capital Latin-1 letters (192-222 except the multiplication sign,
    215) move up by 32; every other code point is kept. *)
Definition lower_char (c : ascii) : ascii :=
  let n := N_of_ascii c in
  if ((65 <=? n) && (n <=? 90)
      || (192 <=? n) && (n <=? 222) && negb (n =? 215))%N
  then ascii_of_N (n + 32)
  else c.

(** [s.lower()] *)
Fixpoint lower (s : string) : string :=
  match s with
  | EmptyString => EmptyString
  | String c s' => String (lower_char c) (lower s')
  end.

(** ** Dictionaries *)

Module Dict.
Section dict.
Context {K : Type} `{Countable K} {V : Type}.

(** A dict display [{k1: v1, k2: v2, ...}]: the items are stored from
    left to right, a later item replacing an earlier one of the same
    key. *)
Definition of_items (items : list (K * V)) : gmap K V :=
  foldl (fun d kv => <[kv.1 := kv.2]> d) ∅ items.

(** [k in d] *)
Definition contains (k : K) (d : gmap K V) : bool :=
  bool_decide (is_Some (d !! k)).

End dict.

(** [d[k]] *)
Definition getitem {V : Type} (d : gmap (string * string) V)
    (k : string * string) : result V :=
  match d !! k with
  | Some v => Return v
  | None => Raise (KeyError k)
  end.

End Dict.

(** ** The tables *)

Definition factor_items : list ((string * string) * float) :=
  [ (* Length *)
    (("m", "cm"), 100.0); (("cm", "m"), 0.01);
    (("m", "km"), 0.001); (("km", "m"), 1000.0);
    (("m", "in"), 39.3701); (("in", "m"), 1 / 39.3701);
    (("m", "ft"), 3.28084); (("ft", "m"), 0.3048);
    (("km", "mi"), 0.621371); (("mi", "km"), 1.60934);
    (("yd", "ft"), 3.0); (("ft", "yd"), 1 / 3.0);
    (("in", "ft"), 1 / 12.0); (("ft", "in"), 12.0);
    (("mi", "yd"), 1760.0); (("yd", "mi"), 1 / 1760.0);
    (("nm", "m"), 1e-9); (("m", "nm"), 1e9);
    (("au", "km"), 149597870.7); (("km", "au"), 1 / 149597870.7);
    (("ly", "km"), 9.461e12); (("km", "ly"), 1 / 9.461e12);
    (* Mass *)
    (("kg", "g"), 1000.0); (("g", "kg"), 0.001);
    (("kg", "lb"), 2.20462); (("lb", "kg"), 0.453592);
    (("g", "mg"), 1000.0); (("mg", "g"), 0.001);
    (("oz", "g"), 28.3495); (("g", "oz"), 1 / 28.3495);
    (("lb", "oz"), 16.0); (("oz", "lb"), 1 / 16.0);
    (("ton", "kg"), 1000.0); (("kg", "ton"), 1 / 1000.0);
    (* Derived units *)
    (("n", "lbf"), 0.224809); (("lbf", "n"), 4.44822);
    (("nm", "lb-ft"), 0.737562); (("lb-ft", "nm"), 1.35582);
    (("kg/m3", "lb/ft3"), 0.062428); (("lb/ft3", "kg/m3"), 16.0185)
  ]%float.

(** Conversion factors for simple multiplications. *)
Definition CONVERSION_FACTORS : gmap (string * string) float :=
  Dict.of_items factor_items.

Definition temperature_items
    : list ((string * string) * (pynum -> result pynum)) :=
  [ (("c", "f"), fun v =>
       a ← PyNum.mul v (PyInt 9); b ← PyNum.truediv a (PyInt 5);
       PyNum.add b (PyInt 32));
    (("f", "c"), fun v =>
       a ← PyNum.sub v (PyInt 32); b ← PyNum.mul a (PyInt 5);
       PyNum.truediv b (PyInt 9));
    (("c", "k"), fun v => PyNum.add v (PyFloat 273.15));
    (("k", "c"), fun v => PyNum.sub v (PyFloat 273.15));
    (("f", "k"), fun v =>
       a ← PyNum.sub v (PyInt 32); b ← PyNum.mul a (PyInt 5);
       c ← PyNum.truediv b (PyInt 9); PyNum.add c (PyFloat 273.15));
    (("k", "f"), fun v =>
       a ← PyNum.sub v (PyFloat 273.15); b ← PyNum.mul a (PyInt 9);
       c ← PyNum.truediv b (PyInt 5); PyNum.add c (PyInt 32))
  ].

(** Temperature conversions using functions. *)
Definition TEMPERATURE_CONVERSIONS
    : gmap (string * string) (pynum -> result pynum) :=
  Dict.of_items temperature_items.

(** ** The conversion function *)

(** The f-string of the error. *)
Definition unsupported_message (from_unit to_unit : string) : string :=
  "Conversion from '" +:+ from_unit +:+ "' to '" +:+ to_unit
    +:+ "' is not supported.".

(** The body of [convert], with the two global tables it reads as
    arguments. *)
Definition convert_in
    (factors : gmap (string * string) float)
    (temperatures : gmap (string * string) (pynum -> result pynum))
    (value : pynum) (from_unit to_unit : string) : result pynum :=
  let from_unit := lower from_unit in
  let to_unit := lower to_unit in
  if Dict.contains (from_unit, to_unit) factors then
    factor ← Dict.getitem factors (from_unit, to_unit);
    PyNum.mul value (PyFloat factor)
  else if Dict.contains (from_unit, to_unit) temperatures then
    formula ← Dict.getitem temperatures (from_unit, to_unit);
    formula value
  else
    Raise (ValueError (unsupported_message from_unit to_unit)).

(** Convert a value from one unit to another. *)
Definition convert (value : pynum) (from_unit to_unit : string)
    : result pynum :=
  convert_in CONVERSION_FACTORS TEMPERATURE_CONVERSIONS
    value from_unit to_unit.

(** ** Exact value of a float *)

(** The rational number a finite binary64 value stands for. *)
Definition float_to_Q (x : float) : option Q :=
  match Prim2SF x with
  | S754_zero _ => Some 0%Q
  | S754_finite s m e =>
      Some (inject_Z (if s then Z.neg m else Z.pos m) * Qpower 2 e)%Q
  | S754_infinity _ | S754_nan => None
  end.

(** ** The front ends *)

(** [try: body except ValueError as e: handler(str(e))]: only a
    [ValueError] is caught, any other exception goes on to the caller. *)
Definition try_except_ValueError {A : Type}
    (body : result A) (handler : string -> result A) : result A :=
  match body with
  | Raise (ValueError msg) => handler msg
  | r => r
  end.

(** The values of the dict a request handler returns. *)
Inductive pyval : Type :=
  | PyNum_ (n : pynum)
  | PyStr (s : string).

(** The handler of [GET /convert]. *)
Definition api_convert (value : pynum) (from_unit to_unit : string)
    : result (gmap string pyval) :=
  try_except_ValueError
    (result ← convert value from_unit to_unit;
     Return {[ "result" := PyNum_ result ]})
    (fun e => Return {[ "error" := PyStr e ]}).

(** What [parse_args] hands to [cli]: a float and two strings. *)
Record Namespace : Type := {
  args_value : float;
  args_from_unit : string;
  args_to_unit : string
}.

Section cli.
(** [str] of a float, a builtin of the language. *)
Variable float_str : float -> string.

(** [str] of a number. *)
Definition num_str (v : pynum) : string :=
  match v with
  | PyInt n => pretty n
  | PyFloat x => float_str x
  end.

(** [print(text)]: the text and then a line feed are written to the
    standard output, a stream of characters taken to accept every text. *)
Definition print (text : string) (stdout : string) : string :=
  stdout +:+ text +:+ String "010" "".

(** The body of [cli] once the arguments are parsed, as a function of
    what the standard output holds. *)
Definition cli (args : Namespace) (stdout : string) : result string :=
  try_except_ValueError
    (result ← convert (PyFloat (args_value args))
                (args_from_unit args) (args_to_unit args);
     Return (print
       (float_str (args_value args) +:+ " " +:+ args_from_unit args
          +:+ " = " +:+ num_str result +:+ " " +:+ args_to_unit args)
       stdout))
    (fun e => Return (print e stdout)).

End cli.

(** ** The contract in the words of the specification *)

Module Spec.

(** The capital letters among the code points below 256, and the small
    letter of each, in the same order. *)
Definition capital_letters : list ascii :=
  list_ascii_of_string "ABCDEFGHIJKLMNOPQRSTUVWXYZ"
    ++ map ascii_of_nat (seq 192 23 ++ seq 216 7).

Definition small_letters : list ascii :=
  list_ascii_of_string "abcdefghijklmnopqrstuvwxyz"
    ++ map ascii_of_nat (seq 224 23 ++ seq 248 7).

Fixpoint small_letter_in (capitals smalls : list ascii) (c : ascii)
    : ascii :=
  match capitals, smalls with
  | capital :: capitals', small :: smalls' =>
      if Ascii.eqb c capital then small
      else small_letter_in capitals' smalls' c
  | _, _ => c
  end.

(** Lower case and no other transformation: a capital letter becomes its
    small letter; every other character stays, and so does the length. *)
Definition lower_case (s : string) : string :=
  string_of_list_ascii
    (map (small_letter_in capital_letters small_letters)
       (list_ascii_of_string s)).

End Spec.

(** ** Vocabulary of the properties *)

(** The lower-cased pair is a key of one of the tables. *)
Definition supported (from_unit to_unit : string) : Prop :=
  (lower from_unit, lower to_unit)
    ∈ dom CONVERSION_FACTORS ∪ dom TEMPERATURE_CONVERSIONS.

(** [c in s] for a character [c]. *)
Fixpoint has_char (c : ascii) (s : string) : bool :=
  match s with
  | EmptyString => false
  | String c' s' => Ascii.eqb c c' || has_char c s'
  end.

(** How far the exact product of two floats is from 1. *)
Definition reciprocal_error (f g : float) : option Q :=
  match float_to_Q f, float_to_Q g with
  | Some p, Some q => Some (Qabs (p * q - 1))
  | _, _ => None
  end.

(** The outcome of a call on a supported pair: a float, or
    [OverflowError] when the argument is an integer. *)
Definition float_or_overflow (value : pynum) (r : result pynum) : Prop :=
  match r with
  | Return (PyFloat _) => True
  | Raise OverflowError => exists n, value = PyInt n
  | _ => False
  end.

(** * Properties *)

(** ** Lower-casing *)

Lemma lower_char_idemp (c : ascii) : lower_char (lower_char c) = lower_char c.
Proof. by destruct c as [[] [] [] [] [] [] [] []]. Qed.

Lemma lower_idemp (s : string) : lower (lower s) = lower s.
Proof.
  induction s as [|c s IH]; simpl; [done|].
  by rewrite lower_char_idemp, IH.
Qed.

(** ** Dictionaries *)

Section dict_facts.
Context {K : Type} `{Countable K} {V : Type}.
Implicit Types (d : gmap K V) (items : list (K * V)).

Lemma contains_true k d v : d !! k = Some v -> Dict.contains k d = true.
Proof. intros Hk. apply bool_decide_eq_true. by exists v. Qed.

Lemma contains_false k d : d !! k = None -> Dict.contains k d = false.
Proof.
  intros Hk. apply bool_decide_eq_false. rewrite Hk. by intros [? ?].
Qed.

Lemma contains_dom k d : Dict.contains k d = true <-> k ∈ dom d.
Proof.
  unfold Dict.contains. rewrite bool_decide_eq_true. symmetry.
  apply elem_of_dom.
Qed.

(** Storing items over [d] only adds the listed items. *)
Lemma foldl_insert_lookup items d k v :
  foldl (fun d kv => <[kv.1 := kv.2]> d) d items !! k = Some v ->
  (k, v) ∈ items \/ d !! k = Some v.
Proof.
  revert d. induction items as [|[k' v'] items IH]; intros d; simpl.
  - by right.
  - intros [Hin|Hd]%IH.
    + left. by right.
    + destruct (decide (k' = k)) as [->|Hne].
      * rewrite lookup_insert_eq in Hd. injection Hd as ->. left. by left.
      * rewrite lookup_insert_ne in Hd by done. by right.
Qed.

Lemma of_items_lookup items k v :
  Dict.of_items items !! k = Some v -> (k, v) ∈ items.
Proof.
  intros [?|Hemp]%foldl_insert_lookup; [done|].
  by rewrite lookup_empty in Hemp.
Qed.

(** A property of the listed keys holds of every key of the dict. *)
Lemma of_items_keys (P : K -> Prop) items :
  Forall (fun kv => P kv.1) items ->
  forall k, k ∈ dom (Dict.of_items items) -> P k.
Proof.
  intros Hall k [v Hv]%elem_of_dom.
  apply of_items_lookup in Hv.
  by apply (proj1 (Forall_forall _ _) Hall (k, v)).
Qed.

End dict_facts.

(** ** The conversion function, as a lookup *)

Section convert_facts.
Implicit Types (factors : gmap (string * string) float)
  (temperatures : gmap (string * string) (pynum -> result pynum))
  (value : pynum) (from_unit to_unit : string).

(** The membership tests followed by the subscripts amount to one lookup
    in each table; the subscript never raises [KeyError]. *)
Lemma convert_in_lookup factors temperatures value from_unit to_unit :
  convert_in factors temperatures value from_unit to_unit =
  match factors !! (lower from_unit, lower to_unit) with
  | Some factor => PyNum.mul value (PyFloat factor)
  | None =>
      match temperatures !! (lower from_unit, lower to_unit) with
      | Some formula => formula value
      | None =>
          Raise (ValueError
                   (unsupported_message (lower from_unit) (lower to_unit)))
      end
  end.
Proof.
  unfold convert_in, Dict.getitem.
  destruct (factors !! _) as [factor|] eqn:Hf.
  - by rewrite (contains_true _ _ _ Hf).
  - rewrite (contains_false _ _ Hf).
    destruct (temperatures !! _) as [formula|] eqn:Ht.
    + by rewrite (contains_true _ _ _ Ht).
    + by rewrite (contains_false _ _ Ht).
Qed.

Lemma convert_in_factor factors temperatures value from_unit to_unit factor :
  factors !! (lower from_unit, lower to_unit) = Some factor ->
  convert_in factors temperatures value from_unit to_unit
  = PyNum.mul value (PyFloat factor).
Proof. intros Hf. by rewrite convert_in_lookup, Hf. Qed.

Lemma convert_in_formula factors temperatures value from_unit to_unit formula :
  factors !! (lower from_unit, lower to_unit) = None ->
  temperatures !! (lower from_unit, lower to_unit) = Some formula ->
  convert_in factors temperatures value from_unit to_unit = formula value.
Proof. intros Hf Ht. by rewrite convert_in_lookup, Hf, Ht. Qed.

Lemma convert_in_unsupported factors temperatures value from_unit to_unit :
  factors !! (lower from_unit, lower to_unit) = None ->
  temperatures !! (lower from_unit, lower to_unit) = None ->
  convert_in factors temperatures value from_unit to_unit
  = Raise (ValueError (unsupported_message (lower from_unit) (lower to_unit))).
Proof. intros Hf Ht. by rewrite convert_in_lookup, Hf, Ht. Qed.

End convert_facts.

Lemma lower_char_small_letter (c : ascii) :
  lower_char c = Spec.small_letter_in Spec.capital_letters
                   Spec.small_letters c.
Proof. by destruct c as [[] [] [] [] [] [] [] []]. Qed.

(** [lower] is the lower-casing of the specification. *)
Lemma lower_lower_case (s : string) : lower s = Spec.lower_case s.
Proof.
  unfold Spec.lower_case. induction s as [|c s IH]; [done|].
  cbn [lower list_ascii_of_string map string_of_list_ascii].
  by rewrite lower_char_small_letter, IH.
Qed.

(** C1: [convert] lower-cases both unit strings and nothing else (each
    capital letter becomes its small letter, every other character and
    the length are kept); the lower-cased ordered pair is looked up in
    the linear factor table and, when present, the result is the value
    times the factor (the binary64 product, an integer being widened to
    a float first); otherwise it is looked up in the temperature table
    and, when present, the result is the formula applied to the value;
    otherwise the call fails.  This holds for every value and every two
    strings. *)
Theorem convert_contract (value : pynum) (from_unit to_unit : string) :
  convert value from_unit to_unit =
  match
    CONVERSION_FACTORS
      !! (Spec.lower_case from_unit, Spec.lower_case to_unit)
  with
  | Some factor =>
      match value with
      | PyFloat x => Return (PyFloat (x * factor)%float)
      | PyInt n =>
          x ← PyNum.float_of_int n; Return (PyFloat (x * factor)%float)
      end
  | None =>
      match
        TEMPERATURE_CONVERSIONS
          !! (Spec.lower_case from_unit, Spec.lower_case to_unit)
      with
      | Some formula => formula value
      | None =>
          Raise (ValueError
                   ("Conversion from '" +:+ Spec.lower_case from_unit
                      +:+ "' to '" +:+ Spec.lower_case to_unit
                      +:+ "' is not supported."))
      end
  end.
Proof.
  unfold convert. rewrite convert_in_lookup, !lower_lower_case.
  destruct (CONVERSION_FACTORS !! _) as [factor|]; [|done].
  by destruct value.
Qed.

(** C2: when the lower-cased ordered pair is in neither table, [convert]
    raises the error whose message is
    [Conversion from '<from_unit>' to '<to_unit>' is not supported.] with
    the two lower-cased unit strings in it; [convert(1, "xx", "yy")] fails
    with [Conversion from 'xx' to 'yy' is not supported.] *)
Theorem convert_unsupported_message :
  (forall (value : pynum) (from_unit to_unit : string),
     (lower from_unit, lower to_unit) ∉ dom CONVERSION_FACTORS ->
     (lower from_unit, lower to_unit) ∉ dom TEMPERATURE_CONVERSIONS ->
     convert value from_unit to_unit
     = Raise (ValueError
                ("Conversion from '" +:+ lower from_unit +:+ "' to '"
                   +:+ lower to_unit +:+ "' is not supported."))) /\
  convert (PyInt 1) "xx" "yy"
  = Raise (ValueError "Conversion from 'xx' to 'yy' is not supported.").
Proof.
  split; [|by vm_compute].
  intros value from_unit to_unit Hf%not_elem_of_dom Ht%not_elem_of_dom.
  by apply convert_in_unsupported.
Qed.

Lemma convert_unsupported_message_witness :
  convert (PyFloat 2.5) "Furlong" "M"
  = Raise (ValueError "Conversion from 'furlong' to 'm' is not supported.").
Proof.
  apply (proj1 convert_unsupported_message (PyFloat 2.5) "Furlong" "M").
  - apply not_elem_of_dom. vm_compute. reflexivity.
  - apply not_elem_of_dom. vm_compute. reflexivity.
Defined.

(** ** The keys of the tables *)

(** The displays list no key twice: 40 linear pairs, 6 temperature pairs. *)
Lemma table_sizes :
  size CONVERSION_FACTORS = length factor_items /\
  size TEMPERATURE_CONVERSIONS = length temperature_items.
Proof. split; by vm_compute. Qed.

(** Every key of the linear table is made of lower-case unit codes. *)
Lemma factor_keys_lower (k : string * string) :
  k ∈ dom CONVERSION_FACTORS -> lower k.1 = k.1 /\ lower k.2 = k.2.
Proof.
  revert k.
  apply (of_items_keys (fun k => lower k.1 = k.1 /\ lower k.2 = k.2)).
  repeat constructor.
Qed.

(** Every key of the temperature table is made of lower-case unit codes. *)
Lemma temperature_keys_lower (k : string * string) :
  k ∈ dom TEMPERATURE_CONVERSIONS -> lower k.1 = k.1 /\ lower k.2 = k.2.
Proof.
  revert k.
  apply (of_items_keys (fun k => lower k.1 = k.1 /\ lower k.2 = k.2)).
  repeat constructor.
Qed.

(** C3: for every pair of the linear factor table and every value,
    [convert] gives the value multiplied by the factor of the pair: the
    binary64 product for a float, zero, negative and large ones included,
    and Python's [int * float] for an integer, which widens the integer
    to a float first. *)
Theorem convert_linear_factor
    (from_unit to_unit : string) (factor : float) :
  CONVERSION_FACTORS !! (from_unit, to_unit) = Some factor ->
  (forall value : pynum,
     convert value from_unit to_unit = PyNum.mul value (PyFloat factor)) /\
  (forall x : float,
     convert (PyFloat x) from_unit to_unit
     = Return (PyFloat (x * factor)%float)) /\
  (forall n : Z,
     convert (PyInt n) from_unit to_unit
     = (x ← PyNum.float_of_int n; Return (PyFloat (x * factor)%float))).
Proof.
  intros Hf.
  destruct (factor_keys_lower (from_unit, to_unit)) as [H1 H2].
  { apply elem_of_dom. by exists factor. }
  simpl in H1, H2.
  assert (forall value, convert value from_unit to_unit
                        = PyNum.mul value (PyFloat factor)) as Hmul.
  { intros value. apply convert_in_factor. by rewrite H1, H2. }
  split; [done|]. split; intros ?; by rewrite Hmul.
Qed.

Lemma convert_linear_factor_witness :
  CONVERSION_FACTORS !! ("m", "cm") = Some 100.0%float /\
  convert (PyFloat (-2.5)) "m" "cm" = Return (PyFloat (-2.5 * 100.0)%float).
Proof.
  split; [reflexivity|].
  apply (proj1 (proj2 (convert_linear_factor "m" "cm" 100.0%float eq_refl))).
Defined.

(** ** Temperature pairs *)

Lemma convert_temperature (from_unit to_unit : string)
    (formula : pynum -> result pynum) (value : pynum) :
  TEMPERATURE_CONVERSIONS !! (from_unit, to_unit) = Some formula ->
  CONVERSION_FACTORS !! (from_unit, to_unit) = None ->
  convert value from_unit to_unit = formula value.
Proof.
  intros Ht Hf.
  destruct (temperature_keys_lower (from_unit, to_unit)) as [H1 H2].
  { apply elem_of_dom. by exists formula. }
  simpl in H1, H2. apply convert_in_formula; by rewrite H1, H2.
Qed.

(** Looks the pair up and runs the operators of its formula as far as the
    argument allows. *)
Ltac temperature_pair from_unit to_unit :=
  rewrite (convert_temperature from_unit to_unit _ _ eq_refl eq_refl);
  cbn [snd mbind result_bind PyNum.mul PyNum.add PyNum.sub PyNum.truediv
       PyNum.arith].

(** C4: each of the six temperature pairs computes its listed formula:
    c to f is x*9/5 + 32, f to c is (x-32)*5/9, c to k is x + 273.15,
    k to c is x - 273.15, f to k is (x-32)*5/9 + 273.15 and k to f is
    (x-273.15)*9/5 + 32, for every float [x]; for an integer [n] the
    same expressions are evaluated with Python's integer operators up to
    the first float operand or true division. *)
Theorem convert_temperature_formulas :
  (forall x : float,
     convert (PyFloat x) "c" "f" = Return (PyFloat (x * 9 / 5 + 32)%float) /\
     convert (PyFloat x) "f" "c" = Return (PyFloat ((x - 32) * 5 / 9)%float) /\
     convert (PyFloat x) "c" "k" = Return (PyFloat (x + 273.15)%float) /\
     convert (PyFloat x) "k" "c" = Return (PyFloat (x - 273.15)%float) /\
     convert (PyFloat x) "f" "k"
     = Return (PyFloat ((x - 32) * 5 / 9 + 273.15)%float) /\
     convert (PyFloat x) "k" "f"
     = Return (PyFloat ((x - 273.15) * 9 / 5 + 32)%float)) /\
  (forall n : Z,
     convert (PyInt n) "c" "f"
     = (q ← PyNum.int_true_divide (n * 9) 5;
        Return (PyFloat (q + 32)%float)) /\
     convert (PyInt n) "f" "c"
     = (q ← PyNum.int_true_divide ((n - 32) * 5) 9; Return (PyFloat q)) /\
     convert (PyInt n) "c" "k"
     = (x ← PyNum.float_of_int n; Return (PyFloat (x + 273.15)%float)) /\
     convert (PyInt n) "k" "c"
     = (x ← PyNum.float_of_int n; Return (PyFloat (x - 273.15)%float)) /\
     convert (PyInt n) "f" "k"
     = (q ← PyNum.int_true_divide ((n - 32) * 5) 9;
        Return (PyFloat (q + 273.15)%float)) /\
     convert (PyInt n) "k" "f"
     = (x ← PyNum.float_of_int n;
        Return (PyFloat ((x - 273.15) * 9 / 5 + 32)%float))).
Proof.
  split.
  - intros x. repeat split;
      match goal with
      | |- convert _ ?u ?v = _ => temperature_pair u v; reflexivity
      end.
  - intros n. repeat split;
      match goal with
      | |- convert _ ?u ?v = _ => temperature_pair u v
      end;
      match goal with
      | |- context [PyNum.int_true_divide ?a ?b] =>
          destruct (PyNum.int_true_divide a b)
      | |- context [PyNum.float_of_int n] => destruct (PyNum.float_of_int n)
      end; reflexivity.
Qed.

(** C5: [convert] does not distinguish the case of its unit arguments:
    [convert(x, u1, u2)] is [convert(x, lower(u1), lower(u2))] for every
    value and every two strings, and
    [convert(5, "M", "CM") == convert(5, "m", "cm") == 500.0]. *)
Theorem convert_case_insensitive :
  (forall (value : pynum) (from_unit to_unit : string),
     convert value from_unit to_unit
     = convert value (lower from_unit) (lower to_unit)) /\
  convert (PyInt 5) "M" "CM" = convert (PyInt 5) "m" "cm" /\
  convert (PyInt 5) "m" "cm" = Return (PyFloat 500.0).
Proof.
  split; [|split; by vm_compute].
  intros value from_unit to_unit. unfold convert.
  by rewrite !convert_in_lookup, !lower_idemp.
Qed.

(** C6: no chaining: [convert(1, "ly", "m")] fails although ("ly", "km")
    and ("km", "m") are both keys of the linear table; a call returns a
    number only for an ordered pair that is a key of one of the tables. *)
Theorem no_conversion_chaining :
  (forall value : pynum,
     convert value "ly" "m"
     = Raise (ValueError "Conversion from 'ly' to 'm' is not supported.")) /\
  ("ly", "km") ∈ dom CONVERSION_FACTORS /\
  ("km", "m") ∈ dom CONVERSION_FACTORS /\
  (forall (value r : pynum) (from_unit to_unit : string),
     convert value from_unit to_unit = Return r ->
     (lower from_unit, lower to_unit) ∈ dom CONVERSION_FACTORS
     \/ (lower from_unit, lower to_unit) ∈ dom TEMPERATURE_CONVERSIONS).
Proof.
  split; [|split; [|split]].
  - intros value. unfold convert. by rewrite convert_in_lookup.
  - apply elem_of_dom. by eexists.
  - apply elem_of_dom. by eexists.
  - intros value r from_unit to_unit. unfold convert.
    rewrite convert_in_lookup, !elem_of_dom.
    destruct (CONVERSION_FACTORS !! _); [by left; eexists|].
    destruct (TEMPERATURE_CONVERSIONS !! _); [by right; eexists|].
    discriminate.
Qed.

Lemma no_conversion_chaining_witness :
  convert (PyInt 1) "KM" "m" = Return (PyFloat 1000.0) /\
  ((lower "KM", lower "m") ∈ dom CONVERSION_FACTORS
   \/ (lower "KM", lower "m") ∈ dom TEMPERATURE_CONVERSIONS).
Proof.
  split; [reflexivity|].
  apply (proj2 (proj2 (proj2 no_conversion_chaining))
           (PyInt 1) (PyFloat 1000.0) "KM" "m").
  reflexivity.
Defined.

(** C7: the concrete scenarios are exact in binary64 arithmetic:
    [convert(0, "c", "f") == 32.0], [convert(100, "c", "f") == 212.0],
    [convert(1000, "m", "km") == 1.0], [convert(1, "ton", "kg") == 1000.0]. *)
Theorem concrete_scenarios :
  convert (PyInt 0) "c" "f" = Return (PyFloat 32.0) /\
  convert (PyInt 100) "c" "f" = Return (PyFloat 212.0) /\
  convert (PyInt 1000) "m" "km" = Return (PyFloat 1.0) /\
  convert (PyInt 1) "ton" "kg" = Return (PyFloat 1000.0).
Proof. repeat split; by vm_compute. Qed.

(** C8: the round trip [convert(convert(100, "m", "ft"), "ft", "m")]
    returns a float within 0.01% of 100 (here 100.00000320000001, which
    is not 100). *)
Theorem round_trip_m_ft :
  exists (y : float) (q : Q),
    (x ← convert (PyInt 100) "m" "ft"; convert x "ft" "m")
    = Return (PyFloat y) /\
    float_to_Q y = Some q /\
    (Qabs (q - 100) <= 100 * (1 # 10000))%Q /\
    y = 100.00000320000001%float.
Proof.
  eexists _, _. split; [by vm_compute|]. split; [by vm_compute|].
  split; [|reflexivity].
  apply Qle_bool_imp_le. by vm_compute.
Qed.

(** C9: no ordered pair is a key of both tables; and the linear table is
    looked up first: whatever the temperature table holds, a pair found in
    the linear table is converted by its factor. *)
Theorem tables_disjoint_linear_first :
  dom CONVERSION_FACTORS ## dom TEMPERATURE_CONVERSIONS /\
  (forall (factors : gmap (string * string) float)
          (temperatures : gmap (string * string) (pynum -> result pynum))
          (value : pynum) (from_unit to_unit : string) (factor : float),
     factors !! (lower from_unit, lower to_unit) = Some factor ->
     convert_in factors temperatures value from_unit to_unit
     = PyNum.mul value (PyFloat factor)).
Proof.
  split.
  - intros k Hf Ht. revert k Hf Ht.
    apply (of_items_keys (fun k => k ∈ dom TEMPERATURE_CONVERSIONS -> False)).
    repeat (constructor; [by intros ?%not_elem_of_dom|]). constructor.
  - intros. by apply convert_in_factor.
Qed.

Lemma tables_disjoint_linear_first_witness :
  ({[ ("c", "f") := 2.0%float ]} : gmap (string * string) float)
    !! (lower "C", lower "F") = Some 2.0%float /\
  convert_in {[ ("c", "f") := 2.0%float ]} TEMPERATURE_CONVERSIONS
    (PyFloat 10.0) "C" "F"
  = PyNum.mul (PyFloat 10.0) (PyFloat 2.0).
Proof.
  split; [reflexivity|].
  apply (proj2 tables_disjoint_linear_first
           {[ ("c", "f") := 2.0%float ]} TEMPERATURE_CONVERSIONS
           (PyFloat 10.0) "C" "F" 2.0%float).
  reflexivity.
Defined.

(** C10: the identity conversion is unsupported: for every unit code [u]
    of a key of either table, the pair (u, u) is a key of neither table,
    and [convert(x, u, u)] raises the unsupported-conversion error for
    every value. *)
Theorem identity_conversion_unsupported
    (k : string * string) (u : string) (value : pynum) :
  k ∈ dom CONVERSION_FACTORS ∪ dom TEMPERATURE_CONVERSIONS ->
  u = k.1 \/ u = k.2 ->
  ((u, u) ∉ dom CONVERSION_FACTORS) /\
  ((u, u) ∉ dom TEMPERATURE_CONVERSIONS) /\
  convert value u u = Raise (ValueError (unsupported_message u u)).
Proof.
  set (P := fun k : string * string => forall u, u = k.1 \/ u = k.2 ->
    lower u = u /\ CONVERSION_FACTORS !! (u, u) = None
    /\ TEMPERATURE_CONVERSIONS !! (u, u) = None).
  intros Hk Hu. assert (P k) as HP.
  { apply elem_of_union in Hk as [Hk|Hk]; clear Hu; revert k Hk.
    - apply (of_items_keys P).
      repeat (constructor; [by intros ? [-> | ->]|]). constructor.
    - apply (of_items_keys P).
      repeat (constructor; [by intros ? [-> | ->]|]). constructor. }
  destruct (HP u Hu) as (Hlow & Hf & Ht).
  rewrite !not_elem_of_dom. split; [done|]. split; [done|].
  unfold convert. by rewrite convert_in_lookup, !Hlow, Hf, Ht.
Qed.

Lemma identity_conversion_unsupported_witness :
  ("kg", "lb") ∈ dom CONVERSION_FACTORS ∪ dom TEMPERATURE_CONVERSIONS /\
  convert (PyFloat 3.0) "kg" "kg"
  = Raise (ValueError "Conversion from 'kg' to 'kg' is not supported.").
Proof.
  assert (("kg", "lb")
            ∈ dom CONVERSION_FACTORS ∪ dom TEMPERATURE_CONVERSIONS) as Hk.
  { apply elem_of_union_l, elem_of_dom. by eexists. }
  split; [exact Hk|].
  apply (identity_conversion_unsupported ("kg", "lb") "kg" (PyFloat 3.0) Hk).
  by left.
Defined.

(** * Further properties of the engine and of its callers *)

(** ** What the operators can raise *)

Lemma float_of_int_raise (n : Z) (e : exn) :
  PyNum.float_of_int n = Raise e -> e = OverflowError.
Proof.
  unfold PyNum.float_of_int.
  destruct (binary_normalize _ _ _ _ _); intros [= <-] || discriminate.
  done.
Qed.

Lemma int_true_divide_raise (a b : Z) (e : exn) :
  b <> 0%Z -> PyNum.int_true_divide a b = Raise e -> e = OverflowError.
Proof.
  intros Hb. unfold PyNum.int_true_divide.
  destruct (Z.eqb_spec b 0) as [|_]; [done|].
  destruct (SFdiv _ _ _ _); intros [= <-] || discriminate.
  done.
Qed.

Lemma mul_float_or_overflow (value : pynum) (factor : float) :
  float_or_overflow value (PyNum.mul value (PyFloat factor)).
Proof.
  destruct value as [n|x]; simpl; [|done].
  destruct (PyNum.float_of_int n) as [y|e] eqn:Hn; simpl; [done|].
  apply float_of_int_raise in Hn as ->. by exists n.
Qed.

(** Runs a formula on an integer up to its first conversion to float. *)
Ltac formula_int n :=
  cbn [snd mbind result_bind PyNum.mul PyNum.add PyNum.sub PyNum.truediv
       PyNum.arith];
  match goal with
  | |- context [PyNum.int_true_divide ?a ?b] =>
      let H := fresh in
      destruct (PyNum.int_true_divide a b) eqn:H; simpl;
      [done|apply int_true_divide_raise in H as ->; [by exists n|done]]
  | |- context [PyNum.float_of_int n] =>
      let H := fresh in
      destruct (PyNum.float_of_int n) eqn:H; simpl;
      [done|apply float_of_int_raise in H as ->; by exists n]
  end.

Lemma formula_float_or_overflow (k : string * string)
    (formula : pynum -> result pynum) (value : pynum) :
  TEMPERATURE_CONVERSIONS !! k = Some formula ->
  float_or_overflow value (formula value).
Proof.
  intros Hin%of_items_lookup. unfold temperature_items in Hin.
  repeat (apply elem_of_cons in Hin as [[= _ ->]|Hin];
          [destruct value as [n|x]; [formula_int n|done]|]).
  by apply elem_of_nil in Hin.
Qed.

(** Every call ends in one of three ways. *)
Lemma convert_outcome (value : pynum) (from_unit to_unit : string) :
  (supported from_unit to_unit /\
   float_or_overflow value (convert value from_unit to_unit))
  \/ (~ supported from_unit to_unit /\
      convert value from_unit to_unit
      = Raise (ValueError
                 (unsupported_message (lower from_unit) (lower to_unit)))).
Proof.
  unfold supported, convert. rewrite convert_in_lookup, elem_of_union.
  rewrite !elem_of_dom.
  destruct (CONVERSION_FACTORS !! _) as [factor|] eqn:Hf.
  { left. split; [by left|]. apply mul_float_or_overflow. }
  destruct (TEMPERATURE_CONVERSIONS !! _) as [formula|] eqn:Ht.
  { left. split; [by right|]. by eapply formula_float_or_overflow. }
  right. split; [|done]. by intros [[? ?]|[? ?]].
Qed.

(** ** Outcomes of [convert] *)

(** X1: whatever the argument, an integer or a float, a value returned
    by [convert] is a float, as its annotation [-> float] says. *)
Theorem convert_returns_float
    (value r : pynum) (from_unit to_unit : string) :
  convert value from_unit to_unit = Return r -> exists y, r = PyFloat y.
Proof.
  intros Hr.
  destruct (convert_outcome value from_unit to_unit) as [[_ H]|[_ H]];
    rewrite Hr in H; [|done].
  destruct r as [n|y]; [done|by exists y].
Qed.

Lemma convert_returns_float_witness :
  convert (PyInt 3) "yd" "ft" = Return (PyFloat 9.0) /\
  exists y, PyFloat 9.0 = PyFloat y.
Proof.
  split; [reflexivity|].
  apply (convert_returns_float (PyInt 3) (PyFloat 9.0) "yd" "ft").
  reflexivity.
Defined.

(** X2: [convert] raises nothing but the [ValueError] of an unsupported
    pair and, on a supported pair, [OverflowError], which only an integer
    argument can bring about, never a float; it never raises [KeyError]
    or [ZeroDivisionError]. *)
Theorem convert_raises_only
    (value : pynum) (from_unit to_unit : string) (e : exn) :
  convert value from_unit to_unit = Raise e ->
  (~ supported from_unit to_unit /\
   e = ValueError (unsupported_message (lower from_unit) (lower to_unit)))
  \/ (supported from_unit to_unit /\ e = OverflowError /\
      exists n, value = PyInt n).
Proof.
  intros He.
  destruct (convert_outcome value from_unit to_unit) as [[Hs H]|[Hs H]];
    rewrite He in H.
  - right. by destruct e.
  - left. by injection H as ->.
Qed.

Lemma convert_raises_only_witness :
  convert (PyInt (10 ^ 400)) "m" "cm" = Raise OverflowError /\
  supported "m" "cm".
Proof.
  assert (convert (PyInt (10 ^ 400)) "m" "cm" = Raise OverflowError) as He.
  { by vm_compute. }
  split; [exact He|].
  destruct (convert_raises_only _ _ _ _ He) as [[_ [=]]|[Hs _]].
  exact Hs.
Defined.

(** X3: on a supported pair a float argument always gives a float: no
    exception, whatever the float (infinities and NaN included). *)
Theorem convert_float_total (x : float) (from_unit to_unit : string) :
  supported from_unit to_unit ->
  exists y, convert (PyFloat x) from_unit to_unit = Return (PyFloat y).
Proof.
  intros Hs.
  destruct (convert_outcome (PyFloat x) from_unit to_unit) as [[_ H]|[H _]];
    [|done].
  destruct (convert _ _ _) as [[n|y]|[]]; try done; [by exists y|].
  by destruct H.
Qed.

Lemma supported_c_k : supported "C" "K".
Proof. unfold supported. apply elem_of_union_r, elem_of_dom. by eexists. Qed.

Lemma convert_float_total_witness :
  supported "C" "K" /\
  exists y, convert (PyFloat infinity) "C" "K" = Return (PyFloat y).
Proof.
  split; [exact supported_c_k|].
  apply (convert_float_total infinity "C" "K" supported_c_k).
Defined.

(** ** The tables as written *)

Section display_facts.
Context {K : Type} `{Countable K} {V : Type}.
Implicit Types (d : gmap K V) (items : list (K * V)).

Lemma foldl_insert_lookup_fresh items d k :
  k ∉ items.*1 ->
  foldl (fun d kv => <[kv.1 := kv.2]> d) d items !! k = d !! k.
Proof.
  revert d. induction items as [|[k' v'] items IH]; intros d Hk; [done|].
  simpl in *. apply not_elem_of_cons in Hk as [Hne Hk].
  by rewrite IH, lookup_insert_ne.
Qed.

(** In a display without duplicate keys every listed item is stored. *)
Lemma of_items_lookup_NoDup items k v :
  NoDup items.*1 -> (k, v) ∈ items -> Dict.of_items items !! k = Some v.
Proof.
  unfold Dict.of_items. generalize (∅ : gmap K V).
  induction items as [|[k' v'] items IH]; intros d Hnd Hin.
  { by apply elem_of_nil in Hin. }
  simpl in *. apply NoDup_cons in Hnd as [Hk' Hnd].
  apply elem_of_cons in Hin as [[= -> ->]|Hin]; [|by apply IH].
  by rewrite foldl_insert_lookup_fresh, lookup_insert_eq.
Qed.

End display_facts.

Lemma factor_items_NoDup : NoDup factor_items.*1.
Proof. apply (bool_decide_unpack _). by vm_compute. Qed.

Lemma temperature_items_NoDup : NoDup temperature_items.*1.
Proof. apply (bool_decide_unpack _). by vm_compute. Qed.

(** X4: no entry of the two dict displays is overridden by a later entry
    with the same key: a pair and its factor (or formula) are in the table
    exactly when they are listed. *)
Theorem tables_hold_listed_entries :
  (forall (k : string * string) (factor : float),
     (k, factor) ∈ factor_items <-> CONVERSION_FACTORS !! k = Some factor) /\
  (forall (k : string * string) (formula : pynum -> result pynum),
     (k, formula) ∈ temperature_items
     <-> TEMPERATURE_CONVERSIONS !! k = Some formula).
Proof.
  split; intros k v; split.
  - apply of_items_lookup_NoDup, factor_items_NoDup.
  - apply of_items_lookup.
  - apply of_items_lookup_NoDup, temperature_items_NoDup.
  - apply of_items_lookup.
Qed.

Lemma tables_hold_listed_entries_witness :
  (("oz", "lb"), (1 / 16.0)%float) ∈ factor_items /\
  CONVERSION_FACTORS !! ("oz", "lb") = Some (1 / 16.0)%float.
Proof.
  assert ((("oz", "lb"), (1 / 16.0)%float) ∈ factor_items) as Hin.
  { unfold factor_items. do 31 apply list_elem_of_further.
    apply list_elem_of_here. }
  split; [exact Hin|].
  apply (proj1 (proj1 tables_hold_listed_entries ("oz", "lb") _) Hin).
Defined.

(** X5: both tables are closed under reversal: when a pair is a key, so
    is the reversed pair; hence a conversion that is supported is
    supported in the other direction too. *)
Theorem tables_reversible :
  (forall a b : string,
     (a, b) ∈ dom CONVERSION_FACTORS -> (b, a) ∈ dom CONVERSION_FACTORS) /\
  (forall a b : string,
     (a, b) ∈ dom TEMPERATURE_CONVERSIONS ->
     (b, a) ∈ dom TEMPERATURE_CONVERSIONS) /\
  (forall from_unit to_unit : string,
     supported from_unit to_unit -> supported to_unit from_unit).
Proof.
  assert (forall k, k ∈ dom CONVERSION_FACTORS ->
                    (k.2, k.1) ∈ dom CONVERSION_FACTORS) as Hf.
  { apply (of_items_keys (fun k => (k.2, k.1) ∈ dom CONVERSION_FACTORS)).
    repeat (constructor; [apply elem_of_dom; by eexists|]). constructor. }
  assert (forall k, k ∈ dom TEMPERATURE_CONVERSIONS ->
                    (k.2, k.1) ∈ dom TEMPERATURE_CONVERSIONS) as Ht.
  { apply (of_items_keys
             (fun k => (k.2, k.1) ∈ dom TEMPERATURE_CONVERSIONS)).
    repeat (constructor; [apply elem_of_dom; by eexists|]). constructor. }
  split; [intros a b; apply (Hf (a, b))|].
  split; [intros a b; apply (Ht (a, b))|].
  intros a b. unfold supported. rewrite !elem_of_union.
  intros [Hs|Hs]; [left; by apply (Hf (_, _))|right; by apply (Ht (_, _))].
Qed.

Lemma tables_reversible_witness :
  supported "LB-FT" "nm" /\ supported "nm" "LB-FT".
Proof.
  assert (supported "LB-FT" "nm") as Hs.
  { unfold supported. apply elem_of_union_l, elem_of_dom. by eexists. }
  split; [exact Hs|].
  apply (proj2 (proj2 tables_reversible) "LB-FT" "nm" Hs).
Defined.

(** ** The linear factors *)

Lemma convert_factor_mul
    (value : pynum) (from_unit to_unit : string) (factor : float) :
  CONVERSION_FACTORS !! (from_unit, to_unit) = Some factor ->
  convert value from_unit to_unit = PyNum.mul value (PyFloat factor).
Proof.
  intros Hf.
  destruct (factor_keys_lower (from_unit, to_unit)) as [H1 H2].
  { apply elem_of_dom. by exists factor. }
  simpl in H1, H2. apply convert_in_factor. by rewrite H1, H2.
Qed.

(** A property of the listed factors holds of every stored factor. *)
Lemma factor_items_Forall (P : (string * string) * float -> Prop) :
  Forall P factor_items ->
  forall k factor, CONVERSION_FACTORS !! k = Some factor -> P (k, factor).
Proof.
  intros Hall k factor Hin%of_items_lookup.
  by apply (proj1 (Forall_forall _ _) Hall).
Qed.

(** X6: the factor of a pair and the factor of the reversed pair are
    reciprocal to within 3 parts per million: their exact product differs
    from 1 by at most 3/1000000. *)
Theorem factors_reciprocal (a b : string) (f : float) :
  CONVERSION_FACTORS !! (a, b) = Some f ->
  exists (g : float) (err : Q),
    CONVERSION_FACTORS !! (b, a) = Some g /\
    reciprocal_error f g = Some err /\
    (err <= 3 # 1000000)%Q.
Proof.
  intros Hf.
  apply (factor_items_Forall (fun kf =>
    exists g err,
      CONVERSION_FACTORS !! (kf.1.2, kf.1.1) = Some g /\
      reciprocal_error kf.2 g = Some err /\ (err <= 3 # 1000000)%Q))
    in Hf; [done|].
  repeat (constructor;
          [eexists _, _; split; [reflexivity|]; split; [by vm_compute|];
           apply Qle_bool_imp_le; by vm_compute|]).
  constructor.
Qed.

Lemma factors_reciprocal_witness :
  CONVERSION_FACTORS !! ("km", "mi") = Some 0.621371%float /\
  exists (g : float) (err : Q),
    CONVERSION_FACTORS !! ("mi", "km") = Some g /\
    reciprocal_error 0.621371 g = Some err /\
    (err <= 3 # 1000000)%Q.
Proof.
  split; [reflexivity|].
  apply (factors_reciprocal "km" "mi" 0.621371%float). reflexivity.
Defined.

(** X7: every linear factor is a finite float above zero, and a linear
    conversion sends zero, given as a float or as an integer, to 0.0. *)
Theorem factors_positive_finite (a b : string) (f : float) :
  CONVERSION_FACTORS !! (a, b) = Some f ->
  (0 <? f)%float = true /\ (f <? infinity)%float = true /\
  convert (PyFloat 0) a b = Return (PyFloat 0) /\
  convert (PyInt 0) a b = Return (PyFloat 0).
Proof.
  intros Hf. rewrite !(convert_factor_mul _ _ _ _ Hf).
  apply (factor_items_Forall (fun kf =>
    (0 <? kf.2)%float = true /\ (kf.2 <? infinity)%float = true /\
    PyNum.mul (PyFloat 0) (PyFloat kf.2) = Return (PyFloat 0) /\
    PyNum.mul (PyInt 0) (PyFloat kf.2) = Return (PyFloat 0))) in Hf;
    [done|].
  repeat (constructor; [repeat split; reflexivity|]). constructor.
Qed.

Lemma factors_positive_finite_witness :
  CONVERSION_FACTORS !! ("km", "ly") = Some (1 / 9.461e12)%float /\
  convert (PyInt 0) "km" "ly" = Return (PyFloat 0).
Proof.
  split; [reflexivity|].
  apply (factors_positive_finite "km" "ly" (1 / 9.461e12)%float eq_refl).
Defined.

Lemma binary_round_aux_negb (s : bool) (m e : Z) (l : location) :
  binary_round_aux prec emax (negb s) m e l
  = SFopp (binary_round_aux prec emax s m e l).
Proof.
  unfold binary_round_aux.
  destruct (shr_fexp _ _ m e l) as [mrs e'].
  destruct (shr_fexp _ _ _ e' loc_Exact) as [mrs' e''].
  destruct (shr_m mrs'); [done| |done]. by destruct (Z.leb _ _).
Qed.

Lemma SFmul_opp_l (x y : spec_float) :
  SFmul prec emax (SFopp x) y = SFopp (SFmul prec emax x y).
Proof.
  destruct x as [sx|sx| |sx mx ex], y as [sy|sy| |sy my ey]; simpl;
    rewrite <- ?negb_xorb_l; try done.
  apply binary_round_aux_negb.
Qed.

Lemma mul_opp_l (x y : float) : (- x * y = - (x * y))%float.
Proof.
  apply Prim2SF_inj.
  rewrite opp_spec, !mul_spec, opp_spec. apply SFmul_opp_l.
Qed.

(** X8: a linear conversion is odd: for every float [x], converting [-x]
    gives the negation of what converting [x] gives. *)
Theorem convert_linear_odd (a b : string) (f x : float) :
  CONVERSION_FACTORS !! (a, b) = Some f ->
  exists y, convert (PyFloat x) a b = Return (PyFloat y) /\
            convert (PyFloat (- x)) a b = Return (PyFloat (- y)).
Proof.
  intros Hf. exists (x * f)%float.
  rewrite !(convert_factor_mul _ _ _ _ Hf). simpl.
  by rewrite mul_opp_l.
Qed.

Lemma convert_linear_odd_witness :
  CONVERSION_FACTORS !! ("kg", "lb") = Some 2.20462%float /\
  exists y, convert (PyFloat 3.5) "kg" "lb" = Return (PyFloat y) /\
            convert (PyFloat (- 3.5)) "kg" "lb" = Return (PyFloat (- y)).
Proof.
  split; [reflexivity|].
  apply (convert_linear_odd "kg" "lb" 2.20462%float 3.5%float eq_refl).
Defined.

(** ** Unit strings are not trimmed *)

Lemma has_char_space_lower (s : string) :
  has_char " " s = true -> has_char " " (lower s) = true.
Proof.
  induction s as [|c s IH]; cbn [has_char lower]; [done|].
  intros [Hc|Hs]%orb_true_iff; apply orb_true_iff.
  - left. apply Ascii.eqb_eq in Hc as <-. reflexivity.
  - right. by apply IH.
Qed.

Lemma keys_without_space (k : string * string) :
  k ∈ dom CONVERSION_FACTORS ∪ dom TEMPERATURE_CONVERSIONS ->
  has_char " " k.1 = false /\ has_char " " k.2 = false.
Proof.
  intros [Hk|Hk]%elem_of_union; revert k Hk.
  - apply (of_items_keys
             (fun k => has_char " " k.1 = false /\ has_char " " k.2 = false)).
    repeat constructor.
  - apply (of_items_keys
             (fun k => has_char " " k.1 = false /\ has_char " " k.2 = false)).
    repeat constructor.
Qed.

(** X9: a unit string with a space in it, leading, trailing or inner, is
    never accepted: the call raises the unsupported-conversion error
    whatever the value and the other unit. *)
Theorem convert_rejects_spaces
    (value : pynum) (from_unit to_unit : string) :
  has_char " " from_unit = true \/ has_char " " to_unit = true ->
  convert value from_unit to_unit
  = Raise (ValueError
             (unsupported_message (lower from_unit) (lower to_unit))).
Proof.
  intros Hsp.
  destruct (convert_outcome value from_unit to_unit) as [[Hs _]|[_ H]];
    [|done].
  apply keys_without_space in Hs as [H1 H2]. simpl in H1, H2.
  destruct Hsp as [Hsp|Hsp]; apply has_char_space_lower in Hsp; congruence.
Qed.

Lemma convert_rejects_spaces_witness :
  convert (PyInt 1) "m " "cm"
  = Raise (ValueError "Conversion from 'm ' to 'cm' is not supported.").
Proof.
  apply (convert_rejects_spaces (PyInt 1) "m " "cm"). by left.
Defined.

(** ** The request handler *)

(** X10: on a float the request handler never raises: for a supported
    pair it returns the dict with the single key "result" and the float
    [convert] returns, and otherwise the dict with the single key "error"
    and the message of the error. *)
Theorem api_convert_float (x : float) (from_unit to_unit : string) :
  (supported from_unit to_unit /\
   exists y,
     convert (PyFloat x) from_unit to_unit = Return (PyFloat y) /\
     api_convert (PyFloat x) from_unit to_unit
     = Return {[ "result" := PyNum_ (PyFloat y) ]})
  \/ (~ supported from_unit to_unit /\
      api_convert (PyFloat x) from_unit to_unit
      = Return {[ "error" :=
                    PyStr (unsupported_message
                             (lower from_unit) (lower to_unit)) ]}).
Proof.
  unfold api_convert.
  destruct (convert_outcome (PyFloat x) from_unit to_unit)
    as [[Hs H]|[Hs H]].
  - left. split; [done|].
    destruct (convert _ _ _) as [[n|y]|[]]; try done; [by exists y|].
    by destruct H.
  - right. split; [done|]. by rewrite H.
Qed.

(** X11: the request handler catches the [ValueError] only: it raises
    exactly when [convert] raises [OverflowError], the exception is that
    [OverflowError], and the value is then an integer, which a direct
    call can pass; with a float it never raises. *)
Theorem api_convert_raises
    (value : pynum) (from_unit to_unit : string) (e : exn) :
  api_convert value from_unit to_unit = Raise e <->
  e = OverflowError /\
  convert value from_unit to_unit = Raise OverflowError /\
  exists n, value = PyInt n.
Proof.
  unfold api_convert.
  destruct (convert_outcome value from_unit to_unit) as [[_ H]|[_ H]].
  - destruct (convert _ _ _) as [[n|y]|[]]; try done; simpl.
    + split; [done|by intros (_ & [=] & _)].
    + split; [by intros [= <-]|by intros [-> _]].
  - rewrite H. simpl. split; [done|by intros (_ & [=] & _)].
Qed.

Lemma api_convert_raises_witness :
  convert (PyInt (10 ^ 400)) "c" "k" = Raise OverflowError /\
  api_convert (PyInt (10 ^ 400)) "c" "k" = Raise OverflowError.
Proof.
  assert (convert (PyInt (10 ^ 400)) "c" "k" = Raise OverflowError) as He.
  { by vm_compute. }
  split; [exact He|].
  apply (proj2 (api_convert_raises (PyInt (10 ^ 400)) "c" "k" OverflowError)).
  split; [reflexivity|]. split; [exact He|]. by eexists.
Defined.

(** ** The command line *)

(** X12: no exception of [convert] escapes the command line, and it
    calls [print] exactly once: for a supported pair the standard output
    receives the text [<value> <from_unit> = <result> <to_unit>], with the
    units as they were typed, and a line feed; otherwise it receives the
    message of the error, with the units in lower case, and a line feed.
    (The text holds the unit strings, so it spans several lines when
    they contain line feeds.) *)
Theorem cli_prints_once
    (float_str : float -> string) (args : Namespace) (stdout : string) :
  (supported (args_from_unit args) (args_to_unit args) /\
   exists y,
     convert (PyFloat (args_value args))
       (args_from_unit args) (args_to_unit args) = Return (PyFloat y) /\
     cli float_str args stdout
     = Return (stdout
         +:+ (float_str (args_value args) +:+ " " +:+ args_from_unit args
                +:+ " = " +:+ float_str y +:+ " " +:+ args_to_unit args)
         +:+ String "010" ""))
  \/ (~ supported (args_from_unit args) (args_to_unit args) /\
      cli float_str args stdout
      = Return (stdout
          +:+ ("Conversion from '" +:+ lower (args_from_unit args)
                 +:+ "' to '" +:+ lower (args_to_unit args)
                 +:+ "' is not supported.")
          +:+ String "010" "")).
Proof.
  unfold cli.
  destruct (convert_outcome (PyFloat (args_value args))
              (args_from_unit args) (args_to_unit args)) as [[Hs H]|[Hs H]].
  - left. split; [done|].
    destruct (convert _ _ _) as [[n|y]|[]]; try done; [by exists y|].
    by destruct H.
  - right. split; [done|]. by rewrite H.
Qed.

(** ** Integer arguments *)

(** X13: on a linear pair an integer argument is converted as the float
    of the same value: [convert(n, a, b)] is [convert(float(n), a, b)].
    On a temperature pair this fails: at n = 2^53 - 49, which is a float
    exactly, c to f differs between the integer and the float, because the
    integer formula multiplies in integers and rounds once. *)
Theorem convert_int_as_float :
  (forall (n : Z) (x : float) (a b : string) (f : float),
     CONVERSION_FACTORS !! (a, b) = Some f ->
     PyNum.float_of_int n = Return x ->
     convert (PyInt n) a b = convert (PyFloat x) a b) /\
  (PyNum.float_of_int 9007199254740943 = Return 9007199254740943%float /\
   convert (PyInt 9007199254740943) "c" "f"
   = Return (PyFloat 1.621295865853373e+16) /\
   convert (PyFloat 9007199254740943) "c" "f"
   = Return (PyFloat 1.6212958658533728e+16) /\
   1.621295865853373e+16%float <> 1.6212958658533728e+16%float).
Proof.
  split.
  - intros n x a b f Hf Hn. rewrite !(convert_factor_mul _ _ _ _ Hf).
    simpl. by rewrite Hn.
  - split; [by vm_compute|]. split; [by vm_compute|].
    split; [by vm_compute|].
    intros Heq. apply (f_equal Prim2SF) in Heq. by vm_compute in Heq.
Qed.

Lemma convert_int_as_float_witness :
  convert (PyInt 7) "ft" "in" = convert (PyFloat 7) "ft" "in".
Proof.
  apply (proj1 convert_int_as_float 7%Z 7%float "ft" "in" 12%float);
    reflexivity.
Defined.

(** ** Temperature through Celsius *)

(** X14: the two formulas between Fahrenheit and Kelvin are the
    compositions through Celsius, to the last bit: for every value,
    f to k is f to c followed by c to k, and k to f is k to c followed by
    c to f. *)
Theorem temperature_through_celsius (value : pynum) :
  convert value "f" "k" = (c ← convert value "f" "c"; convert c "c" "k") /\
  convert value "k" "f" = (c ← convert value "k" "c"; convert c "c" "f").
Proof.
  split.
  - rewrite (convert_temperature "f" "k" _ value eq_refl eq_refl).
    rewrite (convert_temperature "f" "c" _ value eq_refl eq_refl).
    cbn [snd]. destruct value as [n|x].
    + cbn [mbind result_bind PyNum.mul PyNum.add PyNum.sub PyNum.truediv
           PyNum.arith].
      destruct (PyNum.int_true_divide _ _); reflexivity.
    + reflexivity.
  - rewrite (convert_temperature "k" "f" _ value eq_refl eq_refl).
    rewrite (convert_temperature "k" "c" _ value eq_refl eq_refl).
    cbn [snd]. destruct value as [n|x].
    + cbn [mbind result_bind PyNum.mul PyNum.add PyNum.sub PyNum.truediv
           PyNum.arith].
      destruct (PyNum.float_of_int n); reflexivity.
    + reflexivity.
Qed.
